(** * MSE daily scraper: the ingestion pipeline of [mse_auto_scraper_alerts.py]

    A shallow embedding of the scrape -> store -> export -> alert cycle.
    Pure data transformations (the pandas frame operations and the SQL
    statements issued against [daily_prices]) are Rocq functions; the
    stateful part ([fetch_table], [save_to_sqlite], [save_to_excel],
    [send_email], [daily_job]) lives in a small state-and-exception monad
    whose state is the durable store, the export file, the log and the
    mail channel. *)

From Stdlib Require Import String Ascii List ZArith Lia Bool Arith DecimalString.
Import ListNotations.
Open Scope string_scope.
Open Scope list_scope.

(* ================================================================= *)
(** ** Cells, frames and tables *)

(** A cell of a frame or of the SQLite table.  [Null] is pandas' NaN/None and
    SQL NULL ([to_sql] writes one as the other).  Cells are kept as raw text:
    dtype inference and SQLite type affinity are outside the model. *)
Inductive value : Type :=
| Null
| Text (s : string).

Definition value_eqb (a b : value) : bool :=
  match a, b with
  | Null, Null => true
  | Text s, Text t => String.eqb s t
  | _, _ => false
  end.

(** [pandas.DataFrame]: column labels and the rows, each aligned with the
    labels. *)
Record DataFrame : Type := mkFrame {
  columns : list string;
  rows : list (list value)
}.

(** [len(df)] *)
Definition len (df : DataFrame) : nat := length (rows df).

(** Every row has one cell per column. *)
Definition aligned (df : DataFrame) : Prop :=
  Forall (fun r => length r = length (columns df)) (rows df).

(** ["Ticker" in df.columns]: exact, case-sensitive comparison of labels. *)
Definition has_column (c : string) (cols : list string) : bool :=
  existsb (String.eqb c) cols.

(** Position of label [c] (first match). *)
Fixpoint index_by (eqb : string -> string -> bool) (c : string)
         (cols : list string) : option nat :=
  match cols with
  | [] => None
  | c' :: cols' =>
      if eqb c c' then Some 0%nat
      else option_map S (index_by eqb c cols')
  end.

(** The cell of row [r] under label [c]; NaN when the frame has no such
    column. *)
Definition cell (cols : list string) (r : list value) (c : string) : value :=
  match index_by String.eqb c cols with
  | Some i => nth i r Null
  | None => Null
  end.

(** The table [daily_prices]: its column names and its rows, each stored
    under its rowid. *)
Record Table : Type := mkTable {
  tcolumns : list string;
  trows : list (Z * list value)
}.

(** The database file: [None] while [daily_prices] does not exist. *)
Definition Store : Type := option Table.

Definition stored (db : Store) : list (Z * list value) :=
  match db with
  | None => []
  | Some t => trows t
  end.

(* ================================================================= *)
(** ** SQLite name resolution *)

(** SQLite compares identifiers without regard to ASCII case. *)
Definition ascii_lower (c : ascii) : ascii :=
  let n := nat_of_ascii c in
  if (65 <=? n)%nat && (n <=? 90)%nat then ascii_of_nat (n + 32) else c.

Fixpoint sql_fold (s : string) : string :=
  match s with
  | EmptyString => EmptyString
  | String c s' => String (ascii_lower c) (sql_fold s')
  end.

Definition sql_eqb (a b : string) : bool :=
  String.eqb (sql_fold a) (sql_fold b).

Definition sql_has_column (c : string) (cols : list string) : bool :=
  existsb (sql_eqb c) cols.

Fixpoint sql_distinct (cols : list string) : bool :=
  match cols with
  | [] => true
  | c :: cols' => negb (sql_has_column c cols') && sql_distinct cols'
  end.

(** Value of the double-quoted name ["c"] in a statement over a table with
    columns [tcols], at row [r]: the column of that name, or, when the table
    has none, the string literal (SQLite's double-quoted string fallback). *)
Definition sql_value (tcols : list string) (c : string) (r : list value)
  : value :=
  match index_by sql_eqb c tcols with
  | Some i => nth i r Null
  | None => Text c
  end.

(** The cell an INSERT naming columns [cols] with values [r] stores in table
    column [tc]: the value bound to that name, NULL for a column the
    statement does not name. *)
Definition bound_value (cols : list string) (r : list value) (tc : string)
  : value :=
  match index_by sql_eqb tc cols with
  | Some i => nth i r Null
  | None => Null
  end.

Definition stored_row (tcols cols : list string) (r : list value)
  : list value :=
  map (bound_value cols r) tcols.

(* ================================================================= *)
(** ** [DataFrame.to_sql(TABLE_NAME, conn, if_exists="append", index=False)] *)

Inductive exn_class : Type :=
| ValueError
| AttributeError
| KeyError
| FileNotFoundError
| OperationalError
| OtherError (name : string).

(** A raised Python exception (an instance of [Exception]): its class and
    [str(e)]. *)
Record exn : Type := mkExn {
  exn_type : exn_class;
  exn_str : string
}.

Inductive result (A : Type) : Type :=
| Ok (a : A)
| Raise (e : exn).
Arguments Ok {A} a.
Arguments Raise {A} e.

(** Largest rowid in use. *)
Definition max_rowid (rs : list (Z * list value)) : option Z :=
  match rs with
  | [] => None
  | (i, _) :: rs' => Some (fold_left Z.max (map fst rs') i)
  end.

(** SQLite gives a new row one more than the largest rowid in use, and 1 in
    an empty table.  (Rowids are 64-bit; the model does not reach the
    bound.) *)
Definition next_rowid (rs : list (Z * list value)) : Z :=
  match max_rowid rs with
  | None => 1
  | Some m => m + 1
  end.

Definition insert_row (rs : list (Z * list value)) (r : list value)
  : list (Z * list value) :=
  rs ++ [(next_rowid rs, r)].

Definition insert_frame (df : DataFrame) (t : Table) : Table :=
  mkTable (tcolumns t)
          (fold_left insert_row
                     (map (stored_row (tcolumns t) (columns df)) (rows df))
                     (trows t)).

Definition first_missing (cols tcols : list string) : option string :=
  find (fun c => negb (sql_has_column c tcols)) cols.

(** A missing table is created with the frame's columns (SQLite rejects an
    empty or repeated column list); an existing one receives the rows, and
    the INSERT fails when the frame has a column the table lacks.  A frame
    without rows issues no INSERT. *)
Definition to_sql (df : DataFrame) (db : Store) : result Store :=
  match db with
  | None =>
      match columns df with
      | [] => Raise (mkExn OperationalError "syntax error")
      | _ =>
          if sql_distinct (columns df)
          then Ok (Some (insert_frame df (mkTable (columns df) [])))
          else Raise (mkExn OperationalError "duplicate column name")
      end
  | Some t =>
      match rows df with
      | [] => Ok (Some t)
      | _ =>
          match first_missing (columns df) (tcolumns t) with
          | Some c =>
              Raise (mkExn OperationalError
                           ("table daily_prices has no column named " ++ c))
          | None => Ok (Some (insert_frame df t))
          end
      end
  end.

(* ================================================================= *)
(** ** The compaction statement

<<
    DELETE FROM daily_prices
    WHERE rowid NOT IN (
        SELECT MIN(rowid) FROM daily_prices
        GROUP BY "Ticker", "scrape_date");
>> *)

Definition key : Type := (value * value)%type.

Definition key_eqb (a b : key) : bool :=
  value_eqb (fst a) (fst b) && value_eqb (snd a) (snd b).

(** The grouping key of a stored row.  GROUP BY puts NULLs in one group. *)
Definition group_key (tcols : list string) (r : list value) : key :=
  (sql_value tcols "Ticker" r, sql_value tcols "scrape_date" r).

(** [MIN(rowid)] over the rows of group [k]. *)
Fixpoint group_min (kf : list value -> key) (k : key)
         (rs : list (Z * list value)) : option Z :=
  match rs with
  | [] => None
  | (i, r) :: rs' =>
      if key_eqb (kf r) k
      then Some (match group_min kf k rs' with
                 | None => i
                 | Some m => Z.min i m
                 end)
      else group_min kf k rs'
  end.

(** The groups, each named once. *)
Fixpoint distinct (ks : list key) : list key :=
  match ks with
  | [] => []
  | k :: ks' => k :: filter (fun k' => negb (key_eqb k' k)) (distinct ks')
  end.

(** The sub-select: one [MIN(rowid)] per group. *)
Definition select_min_rowids (kf : list value -> key)
           (rs : list (Z * list value)) : list Z :=
  flat_map (fun k => match group_min kf k rs with
                     | Some m => [m]
                     | None => []
                     end)
           (distinct (map (fun x => kf (snd x)) rs)).

Definition delete_not_in (keep : list Z) (rs : list (Z * list value))
  : list (Z * list value) :=
  filter (fun x => existsb (Z.eqb (fst x)) keep) rs.

Definition delete_duplicates (t : Table) : Table :=
  let kf := group_key (tcolumns t) in
  mkTable (tcolumns t)
          (delete_not_in (select_min_rowids kf (trows t)) (trows t)).

(* ================================================================= *)
(** ** pandas operations of the flat-file export *)

(** [df.reindex(columns=cols)] on one row: cells by label, NaN where the row's
    frame has no such column. *)
Definition reindex (cols from : list string) (r : list value) : list value :=
  map (cell from r) cols.

(** [pd.concat([a, b], ignore_index=True)]: the union of the columns in order
    of appearance, the rows of [a] followed by those of [b]. *)
Definition concat (a b : DataFrame) : DataFrame :=
  let cols := columns a
              ++ filter (fun c => negb (has_column c (columns a))) (columns b) in
  mkFrame cols (map (reindex cols (columns a)) (rows a)
                ++ map (reindex cols (columns b)) (rows b)).

(** The first row of each key, in order ([keep="first"], the default). *)
Fixpoint keep_first {A : Type} (kf : A -> key) (seen : list key) (l : list A)
  : list A :=
  match l with
  | [] => []
  | x :: l' =>
      if existsb (key_eqb (kf x)) seen then keep_first kf seen l'
      else x :: keep_first kf (kf x :: seen) l'
  end.

(** The pair of cells [drop_duplicates] compares; NaNs compare equal. *)
Definition frame_key (cols : list string) (r : list value) : key :=
  (cell cols r "Ticker", cell cols r "scrape_date").

(** [df.drop_duplicates(subset=["Ticker", "scrape_date"])] *)
Definition drop_duplicates (df : DataFrame) : result DataFrame :=
  if has_column "Ticker" (columns df) && has_column "scrape_date" (columns df)
  then Ok (mkFrame (columns df)
                   (keep_first (frame_key (columns df)) [] (rows df)))
  else Raise (mkExn KeyError "Index(['scrape_date'], dtype='object')").

(* ================================================================= *)
(** ** The page *)

(** The parsed page ([BeautifulSoup(html, "html.parser")]). *)
#[warnings="-register-all"]
Inductive node : Type :=
| Tag (name : string) (children : list node)
| NavigableString (s : string).

(** [soup.find(name)]: the first tag of that name in document order. *)
Fixpoint find_in (name : string) (n : node) : option node :=
  match n with
  | NavigableString _ => None
  | Tag t children =>
      if String.eqb t name then Some n
      else (fix first (l : list node) : option node :=
              match l with
              | [] => None
              | c :: l' =>
                  match find_in name c with
                  | Some r => Some r
                  | None => first l'
                  end
              end) children
  end.

Fixpoint soup_find (name : string) (soup : list node) : option node :=
  match soup with
  | [] => None
  | n :: soup' =>
      match find_in name n with
      | Some r => Some r
      | None => soup_find name soup'
      end
  end.

(** A column label as [pd.read_html] produces it: header text, or a position
    when the table has no header row. *)
Inductive label : Type :=
| LStr (s : string)
| LInt (i : Z).

Record RawFrame : Type := mkRaw {
  raw_columns : list label;
  raw_rows : list (list value)
}.

(** [df[c] = v] with a scalar [v]: every column labelled [c] is overwritten;
    a new last column is added when there is none. *)
Fixpoint overwrite (c : string) (v : value) (cols : list string)
         (r : list value) : list value :=
  match cols, r with
  | c' :: cols', x :: r' =>
      (if String.eqb c' c then v else x) :: overwrite c v cols' r'
  | _, _ => r
  end.

Definition set_column (c : string) (v : value) (df : DataFrame) : DataFrame :=
  if has_column c (columns df)
  then mkFrame (columns df) (map (overwrite c v (columns df)) (rows df))
  else mkFrame (columns df ++ [c]) (map (fun r => r ++ [v]) (rows df)).

(* ================================================================= *)
(** ** World and state *)

Inductive level : Type := INFO | ERROR.

(** A message handed to the notifier.  [From] and [To] are configuration
    constants. *)
Record email : Type := mkEmail {
  subject : string;
  body : string
}.

(** What one cycle meets outside the program: the browser, the clock, the
    file system and the mail server.  A fault is an exception raised by the
    collaborator. *)
Record World : Type := mkWorld {
  (** [get_driver()] failing (no browser) *)
  driver_fault : option exn;
  (** [driver.get(url)] and the parsed [page_source] *)
  page : result (list node);
  (** [pd.read_html(StringIO(str(table)))[0]] *)
  read_html : node -> result RawFrame;
  (** [str.strip] *)
  strip : string -> string;
  (** [datetime.now().strftime("%Y-%m-%d")] in [fetch_table] *)
  today : string;
  (** [str(datetime.now())] in the success message *)
  now : string;
  (** [sqlite3.connect(DB_FILE)] failing *)
  connect_fault : option exn;
  (** [combined.to_excel(EXCEL_FILE, index=False)] failing *)
  to_excel_fault : option exn;
  (** the SMTP exchange for one message: [None] when it is accepted *)
  smtp : email -> option exn
}.

Record State : Type := mkState {
  (** [mse_data.db] *)
  db : Store;
  (** [mse_daily.xlsx]: [None] while the file does not exist *)
  excel : option DataFrame;
  (** [mse_scraper.log] *)
  log : list (level * string);
  (** every message [send_email] was called with, in order *)
  outbox : list email;
  (** the messages the SMTP server accepted *)
  delivered : list email;
  (** calls of [driver.get] *)
  page_loads : nat
}.

(* ================================================================= *)
(** ** The monad: state that survives a raised exception *)

Definition M (A : Type) : Type := State -> result A * State.

Definition ret {A : Type} (a : A) : M A := fun s => (Ok a, s).

Definition bind {A B : Type} (m : M A) (f : A -> M B) : M B :=
  fun s =>
    match m s with
    | (Ok a, s') => f a s'
    | (Raise e, s') => (Raise e, s')
    end.

Definition raise {A : Type} (e : exn) : M A := fun s => (Raise e, s).

(** [try: m  except <class> as e: h e] *)
Definition try_except {A : Type} (m : M A) (catches : exn -> bool)
           (h : exn -> M A) : M A :=
  fun s =>
    match m s with
    | (Ok a, s') => (Ok a, s')
    | (Raise e, s') => if catches e then h e s' else (Raise e, s')
    end.

Definition lift {A : Type} (r : result A) : M A := fun s => (r, s).

Definition get : M State := fun s => (Ok s, s).

Definition modify (f : State -> State) : M unit := fun s => (Ok tt, f s).

Notation "x <- m ;; k" := (bind m (fun x => k))
  (at level 61, m at next level, right associativity).
Notation "m ;; k" := (bind m (fun _ => k))
  (at level 61, right associativity).

(** [except Exception]: every modelled exception is an [Exception]. *)
Definition Exception (e : exn) : bool := true.

Definition is_FileNotFoundError (e : exn) : bool :=
  match exn_type e with
  | FileNotFoundError => true
  | _ => false
  end.

Definition logger (l : level) (msg : string) : M unit :=
  modify (fun s => mkState (db s) (excel s) (log s ++ [(l, msg)])
                           (outbox s) (delivered s) (page_loads s)).

Definition set_db (d : Store) : M unit :=
  modify (fun s => mkState d (excel s) (log s)
                           (outbox s) (delivered s) (page_loads s)).

Definition set_excel (f : DataFrame) : M unit :=
  modify (fun s => mkState (db s) (Some f) (log s)
                           (outbox s) (delivered s) (page_loads s)).

(** [str(n)] for a length. *)
Definition str (n : nat) : string := NilZero.string_of_uint (Nat.to_uint n).

Definition nl : string := String (ascii_of_nat 10) EmptyString.

(* ================================================================= *)
(** ** Scraper functions *)

(** [get_driver()], [driver.get(url)], [driver.page_source] and its parse. *)
Definition load_page (w : World) : M (list node) :=
  match driver_fault w with
  | Some e => raise e
  | None =>
      modify (fun s => mkState (db s) (excel s) (log s) (outbox s)
                               (delivered s) (S (page_loads s))) ;;
      lift (page w)
  end.

(** [[c.strip() for c in df.columns]]: a label that is not a string has no
    [strip]. *)
Fixpoint strip_labels (w : World) (ls : list label) : result (list string) :=
  match ls with
  | [] => Ok []
  | LStr c :: ls' =>
      match strip_labels w ls' with
      | Ok cs => Ok (strip w c :: cs)
      | Raise e => Raise e
      end
  | LInt _ :: _ =>
      Raise (mkExn AttributeError "'int' object has no attribute 'strip'")
  end.

Definition fetch_table (w : World) : M DataFrame :=
  logger INFO "Fetching MSE data..." ;;
  soup <- load_page w ;;
  match soup_find "table" soup with
  | None =>
      raise (mkExn ValueError
                   "No table found on the page. The site may have changed.")
  | Some table =>
      raw <- lift (read_html w table) ;;
      cols <- lift (strip_labels w (raw_columns raw)) ;;
      let df := set_column "scrape_date" (Text (today w))
                           (mkFrame cols (raw_rows raw)) in
      logger INFO ("Fetched " ++ str (len df) ++ " rows from MSE.") ;;
      ret df
  end.

(** The line [save_to_sqlite] logs on success. *)
Definition saved_entry (df : DataFrame) : level * string :=
  (INFO, "Saved " ++ str (len df)
         ++ " records to SQLite database 'mse_data.db'.")%string.

Definition sqlite3_connect (w : World) : M unit :=
  match connect_fault w with
  | Some e => raise e
  | None => ret tt
  end.

(** [to_sql] commits its own transaction; the DELETE runs only under the
    guard ["Ticker" in df.columns]. *)
Definition save_to_sqlite (w : World) (df : DataFrame) : M unit :=
  sqlite3_connect w ;;
  s <- get ;;
  d <- lift (to_sql df (db s)) ;;
  set_db d ;;
  (if has_column "Ticker" (columns df)
   then set_db (option_map delete_duplicates d)
   else ret tt) ;;
  logger INFO ("Saved " ++ str (len df)
               ++ " records to SQLite database 'mse_data.db'.").

(** [pd.read_excel(EXCEL_FILE)] *)
Definition read_excel : M DataFrame :=
  s <- get ;;
  match excel s with
  | Some f => ret f
  | None =>
      raise (mkExn FileNotFoundError
                   "[Errno 2] No such file or directory: 'mse_daily.xlsx'")
  end.

Definition to_excel (w : World) (f : DataFrame) : M unit :=
  match to_excel_fault w with
  | Some e => raise e
  | None => set_excel f
  end.

(** Only [FileNotFoundError] is caught: a [KeyError] of [drop_duplicates]
    leaves the function.  The file is taken to give back the frame that was
    written to it. *)
Definition save_to_excel (w : World) (df : DataFrame) : M unit :=
  combined <-
    try_except
      (old_df <- read_excel ;;
       let combined := concat old_df df in
       if has_column "Ticker" (columns combined)
       then lift (drop_duplicates combined)
       else ret combined)
      is_FileNotFoundError
      (fun _ => ret df) ;;
  to_excel w combined ;;
  logger INFO "Saved data to Excel file 'mse_daily.xlsx'.".

(* ================================================================= *)
(** ** Email alerts *)

Definition smtp_send (w : World) (msg : email) : M unit :=
  match smtp w msg with
  | Some e => raise e
  | None =>
      modify (fun s => mkState (db s) (excel s) (log s) (outbox s)
                               (delivered s ++ [msg]) (page_loads s))
  end.

(** The message is built outside the [try]; the SMTP session (connect,
    STARTTLS, login, send) runs inside it, and any exception it raises is
    logged and dropped. *)
Definition send_email (w : World) (subject body : string) : M unit :=
  let msg := mkEmail subject body in
  modify (fun s => mkState (db s) (excel s) (log s) (outbox s ++ [msg])
                           (delivered s) (page_loads s)) ;;
  try_except
    (smtp_send w msg ;;
     logger INFO ("Email sent: " ++ subject))
    Exception
    (fun e => logger ERROR ("Failed to send email: " ++ exn_str e)).

(* ================================================================= *)
(** ** Main job function *)

Definition success_subject : string := "✅ MSE Data Update Successful".
Definition failure_subject : string := "❌ MSE Scraper Failed".

Definition success_message (w : World) (df : DataFrame) : string :=
  "✅ MSE daily update successful." ++ nl
  ++ "Rows fetched: " ++ str (len df) ++ nl
  ++ "Time: " ++ now w.

Definition error_message (e : exn) : string :=
  "❌ MSE scraper failed: " ++ exn_str e.

(** Main scheduled job: scrape, save, log, and send alerts. *)
Definition daily_job (w : World) : M unit :=
  logger INFO "----- Daily scrape started -----" ;;
  try_except
    (df <- fetch_table w ;;
     save_to_sqlite w df ;;
     save_to_excel w df ;;
     send_email w success_subject (success_message w df) ;;
     logger INFO "Daily scrape completed successfully.")
    Exception
    (fun e =>
       logger ERROR (error_message e) ;;
       send_email w failure_subject (error_message e)).

(* ================================================================= *)
(** ** Invariants and observations *)

(** A table scan returns the rows in rowid order. *)
Fixpoint ascending (l : list Z) : Prop :=
  match l with
  | [] => True
  | x :: l' => (forall y, In y l' -> (x < y)%Z) /\ ascending l'
  end.


(** The (Ticker, scrape_date) pair of a stored row, as the compaction
    statement reads it. *)
Definition stored_key (tcols : list string) (x : Z * list value) : key :=
  group_key tcols (snd x).


(** The (Ticker, scrape_date) pairs of the stored rows, in rowid order. *)
Definition stored_pairs (d : Store) : list key :=
  match d with
  | None => []
  | Some t => map (stored_key (tcolumns t)) (trows t)
  end.


(** The state in which [daily_job] enters its [try] block. *)
Definition started (s : State) : State :=
  snd (logger INFO "----- Daily scrape started -----" s).

(** The [except Exception as e] block of [daily_job]. *)
Definition on_failure (w : World) (e : exn) : M unit :=
  logger ERROR (error_message e) ;;
  send_email w failure_subject (error_message e).

(** The line [send_email] logs for a message. *)
Definition delivery_entry (w : World) (msg : email) : level * string :=
  match smtp w msg with
  | None => (INFO, "Email sent: " ++ subject msg)%string
  | Some e => (ERROR, "Failed to send email: " ++ exn_str e)%string
  end.





(** The frame [save_to_excel] writes, given the file it finds. *)
Definition merged (old : option DataFrame) (df : DataFrame)
  : result DataFrame :=
  match old with
  | None => Ok df
  | Some old_df =>
      if has_column "Ticker" (columns (concat old_df df))
      then drop_duplicates (concat old_df df)
      else Ok (concat old_df df)
  end.

Definition excel_entry : level * string :=
  (INFO, "Saved data to Excel file 'mse_daily.xlsx'.").

(* ================================================================= *)
(** ** Scheduler loop and repeated runs *)







(** [pd.read_html] gives every row one cell per label. *)
Definition aligned_raw (raw : RawFrame) : Prop :=
  Forall (fun r => length r = length (raw_columns raw)) (raw_rows raw).

(** The labels that are strings. *)
Fixpoint label_names (ls : list label) : list string :=
  match ls with
  | [] => []
  | LStr c :: ls' => c :: label_names ls'
  | LInt _ :: ls' => label_names ls'
  end.

Definition is_text (l : label) : bool :=
  match l with
  | LStr _ => true
  | LInt _ => false
  end.

(* ================================================================= *)
(** ** Sample data *)

Definition fresh : State := mkState None None [] [] [] 0.

(** A page with a listing table, and a world without faults that reads two
    rows from it on 2024-01-10. *)
Definition mainboard : list node :=
  [Tag "html" [Tag "head" [];
               Tag "body" [Tag "div" [NavigableString "Mainboard"];
                           Tag "table" [Tag "tr" []]]]].

Definition listing : RawFrame :=
  mkRaw [LStr "Ticker"; LStr "Close"]
        [[Text "AIRTEL"; Text "120.5"]; [Text "NBS"; Text "45.0"]].

Definition calm : World :=
  mkWorld None (Ok mainboard) (fun _ => Ok listing) (fun c => c)
          "2024-01-10" "2024-01-10 16:00:07.123456" None None (fun _ => None).

(** The same day, but the page has no table. *)
Definition redesigned : World :=
  mkWorld None (Ok [Tag "html" [Tag "body" [Tag "div" []]]])
          (fun _ => Ok listing) (fun c => c)
          "2024-01-10" "2024-01-10 16:00:07.123456" None None (fun _ => None).



Definition price_columns : list string := ["Ticker"; "Close"; "scrape_date"].

Definition D1 : value := Text "2024-01-10".

Definition run_A : DataFrame :=
  mkFrame price_columns
          [[Text "X"; Text "10"; D1]; [Text "Y"; Text "20"; D1]].


(** A store in which an earlier run left the same pair twice. *)
Definition with_leftovers : State :=
  mkState (Some (mkTable price_columns
                         [(1%Z, [Text "X"; Text "9"; D1]);
                          (2%Z, [Text "X"; Text "9"; D1])]))
          None [] [] [] 0.

(** The frame [fetch_table] builds from [listing] on 2024-01-10. *)
Definition todays_frame : DataFrame :=
  mkFrame price_columns
          [[Text "AIRTEL"; Text "120.5"; D1]; [Text "NBS"; Text "45.0"; D1]].

(** Database and export file after one earlier run. *)
Definition yesterday : State :=
  mkState (Some (mkTable price_columns
                         [(1%Z, [Text "X"; Text "9"; Text "2024-01-09"])]))
          (Some (mkFrame price_columns
                         [[Text "X"; Text "9"; Text "2024-01-09"]]))
          [] [] [] 0.

(** A table without a header row: the labels are positions. *)
Definition headerless : World :=
  mkWorld None (Ok mainboard)
          (fun _ => Ok (mkRaw [LInt 0; LInt 1]
                              [[Text "AIRTEL"; Text "120.5"]]))
          (fun c => c)
          "2024-01-10" "2024-01-10 16:00:07.123456" None None (fun _ => None).

(** No browser can be started. *)
Definition driverless : World :=
  mkWorld (Some (mkExn (OtherError "WebDriverException")
                       "Message: unknown error: cannot find Chrome binary"))
          (Ok mainboard) (fun _ => Ok listing) (fun c => c)
          "2024-01-10" "2024-01-10 16:00:07.123456" None None (fun _ => None).


(** A listing in which the source repeats an instrument. *)
Definition repeating_listing : DataFrame :=
  mkFrame price_columns
          [[Text "X"; Text "10"; D1]; [Text "X"; Text "10"; D1];
           [Text "Y"; Text "20"; D1]].



(* ================================================================= *)
(** * Properties *)

(** ** Keys *)

Lemma value_eqb_eq (a b : value) : value_eqb a b = true <-> a = b.
Proof.
  destruct a as [|s], b as [|t]; simpl; split; intro H;
    try reflexivity; try discriminate.
  - apply String.eqb_eq in H. now subst.
  - injection H as ->. apply String.eqb_refl.
Qed.

Lemma key_eqb_eq (a b : key) : key_eqb a b = true <-> a = b.
Proof.
  destruct a as [a1 a2], b as [b1 b2]; unfold key_eqb; simpl.
  rewrite andb_true_iff, !value_eqb_eq. split.
  - now intros [-> ->].
  - intro H. injection H as -> ->. now split.
Qed.

Lemma key_eqb_refl (a : key) : key_eqb a a = true.
Proof. now apply key_eqb_eq. Qed.

Lemma key_eqb_neq (a b : key) : key_eqb a b = false <-> a <> b.
Proof.
  rewrite <- not_true_iff_false, key_eqb_eq. tauto.
Qed.


Lemma distinct_In (k : key) (ks : list key) : In k (distinct ks) <-> In k ks.
Proof.
  induction ks as [|k0 ks IH]; simpl; [tauto|].
  rewrite filter_In, IH, negb_true_iff, key_eqb_neq.
  destruct (key_eqb k0 k) eqn:E.
  - apply key_eqb_eq in E. tauto.
  - apply key_eqb_neq in E. split; [tauto|].
    intros [H | H]; [tauto|]. right. split; [assumption | congruence].
Qed.



(** ** Rowids *)

Lemma NoDup_map_filter {A B : Type} (g : A -> B) (p : A -> bool) (l : list A) :
  NoDup (map g l) -> NoDup (map g (filter p l)).
Proof.
  induction l as [|x l IH]; simpl; intro H; [constructor|].
  inversion H as [|? ? Hx Hl]; subst.
  destruct (p x); simpl; auto.
  constructor; auto.
  rewrite in_map_iff in *. intros [y [Hy Hin]].
  apply filter_In in Hin. apply Hx. exists y. tauto.
Qed.

Lemma NoDup_map_through {A B C : Type} (f : A -> B) (g : A -> C) (l : list A) :
  NoDup (map g l) ->
  (forall x y, In x l -> In y l -> f x = f y -> g x = g y) ->
  NoDup (map f l).
Proof.
  induction l as [|x l IH]; simpl; intros Hg Hfg; [constructor|].
  inversion Hg as [|? ? Hx Hl]; subst.
  constructor.
  - rewrite in_map_iff. intros [y [Hy Hin]].
    apply Hx. rewrite in_map_iff. exists y. split; [|assumption].
    symmetry. apply Hfg; auto.
  - apply IH; auto.
Qed.

Lemma rowid_determines_row (rs : list (Z * list value)) i r r' :
  NoDup (map fst rs) -> In (i, r) rs -> In (i, r') rs -> r = r'.
Proof.
  induction rs as [|[j q] rs IH]; simpl; intros Hnd H1 H2; [tauto|].
  inversion Hnd as [|? ? Hj Hrs]; subst.
  destruct H1 as [H1 | H1], H2 as [H2 | H2].
  - congruence.
  - injection H1 as -> ->. exfalso. apply Hj.
    change i with (fst (i, r')). now apply in_map.
  - injection H2 as -> ->. exfalso. apply Hj.
    change i with (fst (i, r)). now apply in_map.
  - now apply IH.
Qed.

Lemma fold_left_max_ge (l : list Z) (a : Z) :
  (a <= fold_left Z.max l a)%Z /\
  forall x, In x l -> (x <= fold_left Z.max l a)%Z.
Proof.
  revert a. induction l as [|y l IH]; simpl; intro a.
  - split; [lia | tauto].
  - destruct (IH (Z.max a y)) as [H1 H2]. split; [lia|].
    intros x [-> | Hx]; [lia | auto].
Qed.

Lemma next_rowid_fresh (rs : list (Z * list value)) i :
  In i (map fst rs) -> (i < next_rowid rs)%Z.
Proof.
  unfold next_rowid, max_rowid.
  destruct rs as [|[j q] rs]; simpl; [tauto|].
  destruct (fold_left_max_ge (map fst rs) j) as [H1 H2].
  intros [<- | Hi]; [lia|]. specialize (H2 _ Hi). lia.
Qed.

(** ** The compaction statement keeps one row per group *)

Section Compaction.

Variable kf : list value -> key.

Lemma group_min_in k rs m :
  group_min kf k rs = Some m -> exists r, In (m, r) rs /\ kf r = k.
Proof.
  revert m. induction rs as [|[i r] rs IH]; simpl; intros m H; [discriminate|].
  destruct (key_eqb (kf r) k) eqn:E.
  - apply key_eqb_eq in E.
    destruct (group_min kf k rs) as [m0|].
    + injection H as <-.
      destruct (Z.min_spec i m0) as [[_ ->] | [_ ->]].
      * exists r. auto.
      * destruct (IH m0 eq_refl) as [r' [Hin Hk]]. exists r'. auto.
    + injection H as <-. exists r. auto.
  - destruct (IH m H) as [r' [Hin Hk]]. exists r'. auto.
Qed.

Lemma group_min_le rs i r :
  In (i, r) rs -> exists m, group_min kf (kf r) rs = Some m /\ (m <= i)%Z.
Proof.
  induction rs as [|[j q] rs IH]; simpl; intro H; [tauto|].
  destruct H as [H | H].
  - injection H as -> ->. rewrite key_eqb_refl.
    destruct (group_min kf (kf r) rs) as [m0|]; eexists; split;
      try reflexivity; lia.
  - destruct (IH H) as [m [Hm Hle]]. rewrite Hm.
    destruct (key_eqb (kf q) (kf r)); eexists; split;
      try reflexivity; lia.
Qed.

Lemma select_min_rowids_In rs m :
  In m (select_min_rowids kf rs) <->
  exists r, In (m, r) rs /\ group_min kf (kf r) rs = Some m.
Proof.
  unfold select_min_rowids. rewrite in_flat_map. split.
  - intros [k [_ Hm]].
    destruct (group_min kf k rs) as [m0|] eqn:G; simpl in Hm; [|tauto].
    destruct Hm as [<- | []].
    destruct (group_min_in _ _ _ G) as [r [Hin Hk]].
    exists r. split; [assumption|]. now rewrite Hk.
  - intros [r [Hin G]]. exists (kf r). split.
    + apply distinct_In. apply in_map_iff. exists (m, r). auto.
    + rewrite G. simpl. auto.
Qed.

(** With distinct rowids, a surviving row is the minimum of its own
    group. *)
Lemma survivor_is_group_min rs i r :
  NoDup (map fst rs) ->
  In (i, r) (delete_not_in (select_min_rowids kf rs) rs) ->
  In (i, r) rs /\ group_min kf (kf r) rs = Some i.
Proof.
  unfold delete_not_in. intros Hnd H.
  apply filter_In in H. destruct H as [Hin Hex]. split; [assumption|].
  apply existsb_exists in Hex. destruct Hex as [m [Hm Heq]].
  simpl in Heq. apply Z.eqb_eq in Heq. subst m.
  apply select_min_rowids_In in Hm. destruct Hm as [r' [Hin' G]].
  now rewrite (rowid_determines_row rs i r r' Hnd Hin Hin').
Qed.

Lemma delete_not_in_unique rs :
  NoDup (map fst rs) ->
  NoDup (map (fun x => kf (snd x)) (delete_not_in (select_min_rowids kf rs) rs)).
Proof.
  intro Hnd.
  apply NoDup_map_through with (g := fst).
  - unfold delete_not_in. now apply NoDup_map_filter.
  - intros [i r] [j q] Hx Hy Hk. simpl in *.
    apply survivor_is_group_min in Hx; [|assumption].
    apply survivor_is_group_min in Hy; [|assumption].
    destruct Hx as [_ Gx], Hy as [_ Gy]. rewrite Hk in Gx. congruence.
Qed.

(** Every group keeps a row. *)
Lemma group_survives rs i r :
  In (i, r) rs ->
  exists j q, In (j, q) (delete_not_in (select_min_rowids kf rs) rs)
              /\ kf q = kf r.
Proof.
  intro Hin. destruct (group_min_le rs i r Hin) as [m [G _]].
  destruct (group_min_in _ _ _ G) as [q [Hq Hk]].
  exists m, q. split; [|assumption].
  unfold delete_not_in. apply filter_In. split; [assumption|].
  apply existsb_exists. exists m. split; [|apply Z.eqb_refl].
  apply select_min_rowids_In. exists q. split; [assumption|]. now rewrite Hk.
Qed.



Lemma ascending_snoc (l : list Z) x :
  ascending l -> (forall y, In y l -> (y < x)%Z) -> ascending (l ++ [x]).
Proof.
  induction l as [|a l IH]; simpl; intros H Hx.
  - split; [intros y []| exact I].
  - destruct H as [H1 H2]. split.
    + intros y Hy. apply in_app_or in Hy. destruct Hy as [Hy | [<- | []]]; auto.
    + apply IH; auto.
Qed.





End Compaction.

(** ** First occurrences *)

Section KeepFirst.

Context {A : Type} (kf : A -> key).









End KeepFirst.

(** ** Inserting a frame *)

Lemma insert_rows_spec (new : list (list value)) (rs : list (Z * list value)) :
  exists added,
    fold_left insert_row new rs = rs ++ added
    /\ map snd added = new
    /\ (NoDup (map fst rs) -> NoDup (map fst (rs ++ added)))
    /\ (ascending (map fst rs) -> ascending (map fst (rs ++ added))).
Proof.
  revert rs. induction new as [|r new IH]; intro rs; simpl.
  - exists []. rewrite app_nil_r. auto.
  - destruct (IH (insert_row rs r)) as [added [H1 [H2 [H3 H4]]]].
    unfold insert_row in *. rewrite <- app_assoc in H1, H3, H4. simpl in *.
    exists ((next_rowid rs, r) :: added). repeat split.
    + exact H1.
    + simpl. now rewrite H2.
    + intro Hnd. apply H3. rewrite map_app. simpl.
      apply NoDup_app; [assumption | repeat constructor; tauto |].
      intros i Hi [<- | []]. apply next_rowid_fresh in Hi. lia.
    + intro Hasc. apply H4. rewrite map_app. simpl.
      apply ascending_snoc; [assumption|]. apply next_rowid_fresh.
Qed.

Lemma to_sql_ok (df : DataFrame) (d d' : Store) :
  to_sql df d = Ok d' ->
  exists t' added,
    d' = Some t'
    /\ tcolumns t' = match d with
                     | None => columns df
                     | Some t => tcolumns t
                     end
    /\ trows t' = stored d ++ added
    /\ map snd added = map (stored_row (tcolumns t') (columns df)) (rows df)
    /\ length added = len df
    /\ (NoDup (map fst (stored d)) -> NoDup (map fst (trows t')))
    /\ (ascending (map fst (stored d)) -> ascending (map fst (trows t'))).
Proof.
  unfold to_sql, len. destruct d as [t|].
  - destruct (rows df) as [|r rs] eqn:Er.
    + intro H. injection H as <-. exists t, []. simpl.
      rewrite app_nil_r. repeat split; auto.
    + destruct (first_missing (columns df) (tcolumns t)); [discriminate|].
      intro H. injection H as <-. unfold insert_frame. rewrite Er.
      destruct (insert_rows_spec
                  (map (stored_row (tcolumns t) (columns df)) (r :: rs))
                  (trows t)) as [added [H1 [H2 [H3 H4]]]].
      exists (mkTable (tcolumns t)
                      (fold_left insert_row
                         (map (stored_row (tcolumns t) (columns df)) (r :: rs))
                         (trows t))), added.
      cbn [tcolumns trows stored]. rewrite H1.
      split; [reflexivity|]. split; [reflexivity|]. split; [reflexivity|].
      split; [exact H2|].
      split; [|split; assumption].
      rewrite <- (length_map snd), H2, length_map. reflexivity.
  - destruct (columns df) as [|c cs] eqn:Ec; [discriminate|].
    destruct (sql_distinct (c :: cs)); [|discriminate].
    intro H. injection H as <-. unfold insert_frame. simpl. rewrite Ec.
    destruct (insert_rows_spec
                (map (stored_row (c :: cs) (c :: cs)) (rows df)) [])
      as [added [H1 [H2 [H3 H4]]]].
    exists (mkTable (c :: cs)
                    (fold_left insert_row
                       (map (stored_row (c :: cs) (c :: cs)) (rows df)) [])),
           added.
    cbn [tcolumns trows stored]. rewrite H1.
    split; [reflexivity|]. split; [reflexivity|]. split; [reflexivity|].
    split; [exact H2|].
    split; [|split; assumption].
    rewrite <- (length_map snd), H2, length_map. reflexivity.
Qed.

(** ** The stateful functions, step by step *)

Lemma save_to_sqlite_eq (w : World) (df : DataFrame) (s : State) :
  save_to_sqlite w df s =
  match connect_fault w with
  | Some e => (Raise e, s)
  | None =>
      match to_sql df (db s) with
      | Raise e => (Raise e, s)
      | Ok d =>
          (Ok tt,
           mkState (if has_column "Ticker" (columns df)
                    then option_map delete_duplicates d else d)
                   (excel s) (log s ++ [saved_entry df])
                   (outbox s) (delivered s) (page_loads s))
      end
  end.
Proof.
  unfold save_to_sqlite, sqlite3_connect, bind, get, lift.
  destruct (connect_fault w); [reflexivity|]. simpl.
  destruct (to_sql df (db s)); [|reflexivity].
  destruct (has_column "Ticker" (columns df)); reflexivity.
Qed.

Lemma save_to_sqlite_ok (w : World) (df : DataFrame) (s s' : State) :
  save_to_sqlite w df s = (Ok tt, s') ->
  exists d,
    to_sql df (db s) = Ok d
    /\ s' = mkState (if has_column "Ticker" (columns df)
                     then option_map delete_duplicates d else d)
                    (excel s) (log s ++ [saved_entry df])
                    (outbox s) (delivered s) (page_loads s).
Proof.
  rewrite save_to_sqlite_eq.
  destruct (connect_fault w); [discriminate|].
  destruct (to_sql df (db s)) as [d|]; [|discriminate].
  intro H. injection H as <-. exists d. auto.
Qed.

(** ** Uniqueness after an append *)






(** ** Column resolution *)



Lemma sql_eqb_trans (a b c : string) :
  sql_eqb a b = true -> sql_eqb b c = true -> sql_eqb a c = true.
Proof.
  unfold sql_eqb. rewrite !String.eqb_eq. congruence.
Qed.


Lemma has_column_index c cols :
  has_column c cols = true -> exists i, index_by String.eqb c cols = Some i.
Proof.
  unfold has_column. induction cols as [|c' cols IH]; simpl; [discriminate|].
  destruct (String.eqb c c'); simpl; [eauto|].
  intro H. destruct (IH H) as [i ->]. simpl. eauto.
Qed.







(** ** Appending in rowid order: the first record of a pair stays *)









(** ** Two runs on the same day *)







(** ** The cycle, step by step *)

Lemma send_email_eq (w : World) (subj body : string) (s : State) :
  send_email w subj body s =
  (Ok tt,
   mkState (db s) (excel s)
           (log s ++ [delivery_entry w (mkEmail subj body)])
           (outbox s ++ [mkEmail subj body])
           (match smtp w (mkEmail subj body) with
            | None => delivered s ++ [mkEmail subj body]
            | Some _ => delivered s
            end)
           (page_loads s)).
Proof.
  unfold send_email, try_except, bind, modify, smtp_send, delivery_entry,
    logger, raise, Exception.
  simpl. destruct (smtp w (mkEmail subj body)); reflexivity.
Qed.

Lemma save_to_excel_eq (w : World) (df : DataFrame) (s : State) :
  save_to_excel w df s =
  match merged (excel s) df with
  | Raise e => (Raise e, s)
  | Ok combined =>
      match to_excel_fault w with
      | Some e => (Raise e, s)
      | None =>
          (Ok tt,
           mkState (db s) (Some combined) (log s ++ [excel_entry])
                   (outbox s) (delivered s) (page_loads s))
      end
  end.
Proof.
  unfold save_to_excel, merged, read_excel, to_excel, set_excel, logger,
    try_except, bind, get, raise, ret, lift, modify.
  destruct (excel s) as [old|]; cbv beta iota zeta.
  - remember (concat old df) as c eqn:Ec.
    destruct (has_column "Ticker" (columns c)) eqn:Ht; cbv beta iota zeta.
    + unfold drop_duplicates. rewrite Ht.
      destruct (has_column "scrape_date" (columns c)); cbv beta iota zeta;
        [destruct (to_excel_fault w); reflexivity | reflexivity].
    + destruct (to_excel_fault w); reflexivity.
  - destruct (to_excel_fault w); reflexivity.
Qed.

(** What [fetch_table] leaves alone. *)
Lemma fetch_table_frame (w : World) (s s' : State) (r : result DataFrame) :
  fetch_table w s = (r, s') ->
  db s' = db s /\ excel s' = excel s
  /\ outbox s' = outbox s /\ delivered s' = delivered s.
Proof.
  unfold fetch_table, load_page, bind, logger, modify, raise, lift, ret.
  simpl. destruct (driver_fault w).
  - intro H. injection H as _ <-. auto.
  - simpl. destruct (page w) as [soup|].
    + destruct (soup_find "table" soup) as [table|].
      * destruct (read_html w table) as [raw|].
        -- destruct (strip_labels w (raw_columns raw));
             intro H; injection H as _ <-; auto.
        -- intro H. injection H as _ <-. auto.
      * intro H. injection H as _ <-. auto.
    + intro H. injection H as _ <-. auto.
Qed.

Lemma save_to_sqlite_frame (w : World) (df : DataFrame) (s s' : State) r :
  save_to_sqlite w df s = (r, s') ->
  excel s' = excel s /\ outbox s' = outbox s /\ delivered s' = delivered s.
Proof.
  rewrite save_to_sqlite_eq. destruct (connect_fault w).
  - intro H. injection H as _ <-. auto.
  - destruct (to_sql df (db s)); intro H; injection H as _ <-; auto.
Qed.


Lemma on_failure_eq (w : World) (e : exn) (s : State) :
  on_failure w e s =
  (Ok tt,
   mkState (db s) (excel s)
           (log s ++ [(ERROR, error_message e);
                      delivery_entry w (mkEmail failure_subject (error_message e))])
           (outbox s ++ [mkEmail failure_subject (error_message e)])
           (match smtp w (mkEmail failure_subject (error_message e)) with
            | None => delivered s ++ [mkEmail failure_subject (error_message e)]
            | Some _ => delivered s
            end)
           (page_loads s)).
Proof.
  unfold on_failure, bind. simpl. rewrite send_email_eq. simpl.
  now rewrite <- app_assoc.
Qed.

(** The four ways through [daily_job]. *)
Lemma daily_job_eq (w : World) (s : State) :
  daily_job w s =
  match fetch_table w (started s) with
  | (Raise e, s1) => on_failure w e s1
  | (Ok df, s1) =>
      match save_to_sqlite w df s1 with
      | (Raise e, s2) => on_failure w e s2
      | (Ok _, s2) =>
          match save_to_excel w df s2 with
          | (Raise e, s3) => on_failure w e s3
          | (Ok _, s3) =>
              logger INFO "Daily scrape completed successfully."
                     (snd (send_email w success_subject
                                      (success_message w df) s3))
          end
      end
  end.
Proof.
  unfold daily_job, started, bind at 1, try_except. simpl.
  unfold bind at 1.
  destruct (fetch_table w _) as [[df|e] s1]; [|reflexivity].
  unfold bind at 1.
  destruct (save_to_sqlite w df s1) as [[[]|e] s2]; [|reflexivity].
  unfold bind at 1.
  destruct (save_to_excel w df s2) as [[[]|e] s3]; [|reflexivity].
  unfold bind. rewrite send_email_eq. reflexivity.
Qed.

(** ** The collector *)

(** C8: when the page holds no table, [fetch_table] raises (the ValueError
    "No table found on the page...") instead of returning an empty frame, and
    it has loaded the page once: there is no retry. *)
Theorem fetch_table_without_table_fails
        (w : World) (s : State) (soup : list node) :
  driver_fault w = None ->
  page w = Ok soup ->
  soup_find "table" soup = None ->
  fetch_table w s
  = (Raise (mkExn ValueError
                  "No table found on the page. The site may have changed."),
     mkState (db s) (excel s) (log s ++ [(INFO, "Fetching MSE data...")])
             (outbox s) (delivered s) (S (page_loads s))).
Proof.
  intros Hdrv Hpage Hfind.
  unfold fetch_table, load_page, bind, logger, modify, raise, lift.
  rewrite Hdrv. simpl. rewrite Hpage, Hfind. reflexivity.
Qed.

Lemma fetch_table_without_table_fails_witness :
  fetch_table redesigned fresh
  = (Raise (mkExn ValueError
                  "No table found on the page. The site may have changed."),
     mkState None None [(INFO, "Fetching MSE data...")] [] [] 1).
Proof.
  exact (fetch_table_without_table_fails
           redesigned fresh [Tag "html" [Tag "body" [Tag "div" []]]]
           eq_refl eq_refl eq_refl).
Defined.

(** ** The job runner *)









(** ** The notifier *)






(** ** The reported row count *)

(** C9: the count [save_to_sqlite] logs on success, and the count in the
    success notice, is the number of rows of the input frame, whatever the
    compaction removed; the two-row AIRTEL/NBS listing on an empty store
    gives two stored records, "Saved 2 records" and a success notice with
    "Rows fetched: 2". *)
Theorem rows_written_is_input_size :
  (forall w df s s',
      save_to_sqlite w df s = (Ok tt, s') ->
      log s' = log s ++ [saved_entry df])
  /\ (forall w s df s1 s2 s3,
         fetch_table w (started s) = (Ok df, s1) ->
         save_to_sqlite w df s1 = (Ok tt, s2) ->
         save_to_excel w df s2 = (Ok tt, s3) ->
         exists s',
           daily_job w s = (Ok tt, s')
           /\ In (saved_entry df) (log s')
           /\ outbox s'
              = outbox s ++ [mkEmail success_subject (success_message w df)])
  /\ (stored (db (snd (daily_job calm fresh)))
      = [(1%Z, [Text "AIRTEL"; Text "120.5"; D1]);
         (2%Z, [Text "NBS"; Text "45.0"; D1])]
      /\ In (INFO, "Saved 2 records to SQLite database 'mse_data.db'.")
            (log (snd (daily_job calm fresh)))
      /\ outbox (snd (daily_job calm fresh))
         = [mkEmail "✅ MSE Data Update Successful"
                    ("✅ MSE daily update successful." ++ nl
                     ++ "Rows fetched: 2" ++ nl
                     ++ "Time: 2024-01-10 16:00:07.123456")]).
Proof.
  split; [|split].
  - intros w df s s' H. apply save_to_sqlite_ok in H.
    destruct H as [d [_ ->]]. reflexivity.
  - intros w s df s1 s2 s3 Hfetch Hsql Hxl.
    rewrite daily_job_eq, Hfetch, Hsql, Hxl, send_email_eq.
    eexists. split; [reflexivity|]. simpl.
    apply fetch_table_frame in Hfetch. destruct Hfetch as [_ [_ [Ho1 _]]].
    change (outbox (started s)) with (outbox s) in Ho1.
    pose proof Hsql as Hlog. apply save_to_sqlite_ok in Hlog.
    destruct Hlog as [d [_ Hs2]].
    apply save_to_sqlite_frame in Hsql. destruct Hsql as [_ [Ho2 _]].
    rewrite save_to_excel_eq in Hxl.
    destruct (merged (excel s2) df); [|discriminate].
    destruct (to_excel_fault w); [discriminate|].
    injection Hxl as <-. simpl. split.
    + rewrite Hs2. simpl. rewrite !in_app_iff. simpl. tauto.
    + congruence.
  - split; [reflexivity|]. split; [|reflexivity].
    vm_compute. tauto.
Qed.

Lemma rows_written_is_input_size_witness :
  (log (snd (save_to_sqlite calm repeating_listing fresh))
   = log fresh ++ [saved_entry repeating_listing]
   /\ len repeating_listing = 3%nat
   /\ length (stored (db (snd (save_to_sqlite calm repeating_listing fresh))))
      = 2%nat)
  /\ exists s',
      daily_job calm fresh = (Ok tt, s')
      /\ In (saved_entry todays_frame) (log s')
      /\ outbox s'
         = outbox fresh
           ++ [mkEmail success_subject (success_message calm todays_frame)].
Proof.
  split.
  - split; [|split; reflexivity].
    exact (proj1 rows_written_is_input_size calm repeating_listing fresh
                 (snd (save_to_sqlite calm repeating_listing fresh)) eq_refl).
  - exact (proj1 (proj2 rows_written_is_input_size)
                 calm fresh todays_frame
                 (snd (fetch_table calm (started fresh)))
                 (snd (save_to_sqlite calm todays_frame
                         (snd (fetch_table calm (started fresh)))))
                 (snd (save_to_excel calm todays_frame
                         (snd (save_to_sqlite calm todays_frame
                                 (snd (fetch_table calm (started fresh)))))))
                 eq_refl eq_refl eq_refl).
Defined.

(** ** When duplicates are collapsed *)

Lemma has_column_concat (c : string) (a b : DataFrame) :
  has_column c (columns (concat a b))
  = has_column c (columns a) || has_column c (columns b).
Proof.
  unfold concat, has_column. cbn [columns]. rewrite existsb_app.
  destruct (existsb (String.eqb c) (columns a)) eqn:Ea; [reflexivity|].
  cbn [orb]. induction (columns b) as [|c' l IH]; [reflexivity|].
  cbn [filter existsb].
  destruct (String.eqb c c') eqn:Ec.
  - apply String.eqb_eq in Ec. subst c'.
    fold (has_column c (columns a)). unfold has_column. rewrite Ea.
    cbn [negb existsb]. now rewrite String.eqb_refl.
  - cbn [orb]. destruct (negb _); [|exact IH].
    cbn [existsb]. now rewrite Ec.
Qed.







(* ================================================================= *)
(** * Further properties of the code *)

(** ** [fetch_table] on success *)

Lemma strip_labels_ok (w : World) (ls : list label) (cols : list string) :
  strip_labels w ls = Ok cols ->
  forallb is_text ls = true /\ cols = map (strip w) (label_names ls).
Proof.
  revert cols. induction ls as [|[c|i] ls IH]; simpl; intros cols H.
  - injection H as <-. auto.
  - destruct (strip_labels w ls) as [cs|]; [|discriminate].
    injection H as <-. destruct (IH cs eq_refl) as [H1 ->]. auto.
  - discriminate.
Qed.

Lemma strip_labels_int (w : World) (ls : list label) :
  forallb is_text ls = false ->
  strip_labels w ls
  = Raise (mkExn AttributeError "'int' object has no attribute 'strip'").
Proof.
  induction ls as [|[c|i] ls IH]; simpl; intro H;
    [discriminate | | reflexivity].
  now rewrite (IH H).
Qed.

Lemma fetch_table_ok (w : World) (s s' : State) (df : DataFrame) :
  fetch_table w s = (Ok df, s') ->
  exists soup table raw cols,
    driver_fault w = None
    /\ page w = Ok soup
    /\ soup_find "table" soup = Some table
    /\ read_html w table = Ok raw
    /\ strip_labels w (raw_columns raw) = Ok cols
    /\ df = set_column "scrape_date" (Text (today w))
                       (mkFrame cols (raw_rows raw))
    /\ s' = mkState (db s) (excel s)
                    (log s ++ [(INFO, "Fetching MSE data...");
                               (INFO, "Fetched " ++ str (len df)
                                      ++ " rows from MSE.")%string])
                    (outbox s) (delivered s) (S (page_loads s)).
Proof.
  unfold fetch_table, load_page, bind, logger, modify, raise, lift, ret.
  simpl. destruct (driver_fault w) eqn:Edrv; [discriminate|]. simpl.
  destruct (page w) as [soup|] eqn:Epage; [|discriminate].
  destruct (soup_find "table" soup) as [table|] eqn:Efind; [|discriminate].
  destruct (read_html w table) as [raw|] eqn:Eraw; [|discriminate].
  destruct (strip_labels w (raw_columns raw)) as [cols|] eqn:Ecols;
    [|discriminate].
  intro H. injection H as <- <-.
  exists soup, table, raw, cols. simpl. rewrite <- app_assoc. simpl.
  repeat (split; [first [reflexivity | assumption]|]). reflexivity.
Qed.

Lemma overwrite_length c v cols r :
  length (overwrite c v cols r) = length r.
Proof.
  revert r. induction cols as [|c' cols IH]; intros [|x r]; simpl; auto.
Qed.

Lemma overwrite_nth c v cols r i :
  index_by String.eqb c cols = Some i -> length r = length cols ->
  nth i (overwrite c v cols r) Null = v.
Proof.
  revert r i. induction cols as [|c' cols IH]; intros r i; simpl;
    [discriminate|].
  destruct r as [|x r]; simpl; [discriminate|]. intros Hi Hlen.
  rewrite (String.eqb_sym c' c).
  destruct (String.eqb c c').
  - now injection Hi as <-.
  - destruct (index_by String.eqb c cols) as [j|] eqn:Ej; [|discriminate].
    injection Hi as <-. apply IH; [reflexivity | lia].
Qed.

Lemma index_by_last c cols :
  has_column c cols = false ->
  index_by String.eqb c (cols ++ [c]) = Some (length cols).
Proof.
  unfold has_column. induction cols as [|c' cols IH]; simpl.
  - now rewrite String.eqb_refl.
  - destruct (String.eqb c c'); simpl; [discriminate|].
    intro H. now rewrite (IH H).
Qed.

Lemma set_column_has c v df :
  has_column c (columns (set_column c v df)) = true.
Proof.
  unfold set_column. destruct (has_column c (columns df)) eqn:E; simpl.
  - exact E.
  - unfold has_column. rewrite existsb_app. simpl.
    now rewrite String.eqb_refl, orb_true_r.
Qed.

Lemma set_column_len c v df : len (set_column c v df) = len df.
Proof.
  unfold set_column, len.
  destruct (has_column c (columns df)); simpl; apply length_map.
Qed.

Lemma set_column_aligned c v df :
  aligned df -> aligned (set_column c v df).
Proof.
  unfold aligned, set_column. intro H.
  destruct (has_column c (columns df)); simpl;
    apply Forall_forall; intros r Hr; apply in_map_iff in Hr;
    destruct Hr as [r0 [<- Hr0]];
    rewrite Forall_forall in H; specialize (H r0 Hr0).
  - now rewrite overwrite_length.
  - rewrite !length_app. simpl. lia.
Qed.

Lemma set_column_cells c v df :
  aligned df ->
  Forall (fun r => cell (columns (set_column c v df)) r c = v)
         (rows (set_column c v df)).
Proof.
  unfold aligned, set_column. intro H. rewrite Forall_forall in H.
  destruct (has_column c (columns df)) eqn:E; simpl;
    apply Forall_forall; intros r Hr; apply in_map_iff in Hr;
    destruct Hr as [r0 [<- Hr0]]; specialize (H r0 Hr0); unfold cell.
  - destruct (has_column_index c (columns df) E) as [i Hi]. rewrite Hi.
    now apply overwrite_nth.
  - rewrite (index_by_last c (columns df) E), <- H.
    rewrite app_nth2, Nat.sub_diag; [reflexivity | lia].
Qed.

(** X1: every row of the frame [fetch_table] returns carries the date of
    the run in its "scrape_date" column, the frame has that column and keeps
    one cell per column, and the page was loaded once. *)
Theorem fetch_table_stamps_today
        (w : World) (s s' : State) (df : DataFrame) :
  (forall table raw, read_html w table = Ok raw -> aligned_raw raw) ->
  fetch_table w s = (Ok df, s') ->
  has_column "scrape_date" (columns df) = true
  /\ Forall (fun r => cell (columns df) r "scrape_date" = Text (today w))
            (rows df)
  /\ aligned df
  /\ page_loads s' = S (page_loads s).
Proof.
  intros Hraw Hok. apply fetch_table_ok in Hok.
  destruct Hok as [soup [table [raw [cols [_ [_ [_ [Hr [Hc [-> ->]]]]]]]]]].
  assert (Hal : aligned (mkFrame cols (raw_rows raw))).
  { specialize (Hraw table raw Hr). unfold aligned_raw in Hraw.
    unfold aligned. simpl.
    apply strip_labels_ok in Hc. destruct Hc as [Htext ->].
    rewrite length_map.
    replace (length (label_names (raw_columns raw)))
      with (length (raw_columns raw)); [assumption|].
    clear - Htext. induction (raw_columns raw) as [|[c|i] ls IH]; simpl in *;
      [reflexivity | now rewrite IH | discriminate]. }
  split; [apply set_column_has|].
  split; [now apply set_column_cells|].
  split; [now apply set_column_aligned | reflexivity].
Qed.

Lemma fetch_table_stamps_today_witness :
  has_column "scrape_date" (columns todays_frame) = true
  /\ Forall (fun r => cell (columns todays_frame) r "scrape_date"
                      = Text (today calm))
            (rows todays_frame)
  /\ aligned todays_frame
  /\ page_loads (snd (fetch_table calm fresh)) = S (page_loads fresh).
Proof.
  apply (fetch_table_stamps_today calm fresh (snd (fetch_table calm fresh))
                                  todays_frame).
  - intros table raw H. injection H as <-. repeat constructor.
  - reflexivity.
Defined.

(** X2: the frame [fetch_table] returns has the rows of the first table of
    the page, as [pd.read_html] parsed them, and its columns are the
    header cells passed through [strip], followed by "scrape_date" unless a
    header already has that name; the row count is logged. *)
Theorem fetch_table_trims_headers
        (w : World) (s s' : State) (df : DataFrame) :
  fetch_table w s = (Ok df, s') ->
  exists soup table raw,
    page w = Ok soup
    /\ soup_find "table" soup = Some table
    /\ read_html w table = Ok raw
    /\ len df = length (raw_rows raw)
    /\ columns df
       = (let names := map (strip w) (label_names (raw_columns raw)) in
          if has_column "scrape_date" names then names
          else names ++ ["scrape_date"])
    /\ log s' = log s ++ [(INFO, "Fetching MSE data...");
                          (INFO, "Fetched " ++ str (length (raw_rows raw))
                                 ++ " rows from MSE.")%string].
Proof.
  intro Hok. apply fetch_table_ok in Hok.
  destruct Hok as [soup [table [raw [cols [_ [Hp [Hf [Hr [Hc [-> ->]]]]]]]]]].
  exists soup, table, raw.
  apply strip_labels_ok in Hc. destruct Hc as [_ ->].
  rewrite set_column_len.
  repeat (split; [first [assumption | reflexivity]|]).
  split; [|reflexivity].
  unfold set_column. cbn [columns].
  now destruct (has_column "scrape_date"
                  (map (strip w) (label_names (raw_columns raw)))).
Qed.

Lemma fetch_table_trims_headers_witness :
  exists soup table raw,
    page calm = Ok soup
    /\ soup_find "table" soup = Some table
    /\ read_html calm table = Ok raw
    /\ len todays_frame = length (raw_rows raw)
    /\ columns todays_frame
       = (let names := map (strip calm) (label_names (raw_columns raw)) in
          if has_column "scrape_date" names then names
          else names ++ ["scrape_date"])
    /\ log (snd (fetch_table calm fresh))
       = log fresh ++ [(INFO, "Fetching MSE data...");
                       (INFO, "Fetched " ++ str (length (raw_rows raw))
                              ++ " rows from MSE.")%string].
Proof.
  exact (fetch_table_trims_headers calm fresh (snd (fetch_table calm fresh))
                                   todays_frame eq_refl).
Defined.

(** ** [fetch_table] on failure *)

(** X3: whether it returns or raises, [fetch_table] leaves the database,
    the export file and the mail channel as they were, loads the page at
    most once and only adds lines to the log. *)
Theorem fetch_table_writes_nothing
        (w : World) (s s' : State) (r : result DataFrame) :
  fetch_table w s = (r, s') ->
  db s' = db s /\ excel s' = excel s
  /\ outbox s' = outbox s /\ delivered s' = delivered s
  /\ (page_loads s' <= S (page_loads s))%nat
  /\ exists added, log s' = log s ++ added.
Proof.
  intro H. pose proof (fetch_table_frame w s s' r H) as [H1 [H2 [H3 H4]]].
  repeat (split; [assumption|]).
  revert H.
  unfold fetch_table, load_page, bind, logger, modify, raise, lift, ret.
  simpl. destruct (driver_fault w).
  { intro H. injection H as _ <-. simpl. split; [lia | eauto]. }
  simpl. destruct (page w) as [soup|].
  2:{ intro H. injection H as _ <-. simpl. split; [lia | eauto]. }
  destruct (soup_find "table" soup) as [table|].
  2:{ intro H. injection H as _ <-. simpl. split; [lia | eauto]. }
  destruct (read_html w table) as [raw|].
  2:{ intro H. injection H as _ <-. simpl. split; [lia | eauto]. }
  destruct (strip_labels w (raw_columns raw));
    intro H; injection H as _ <-; simpl; (split; [lia|]).
  - rewrite <- app_assoc. eauto.
  - eauto.
Qed.

Lemma fetch_table_writes_nothing_witness :
  db (snd (fetch_table driverless yesterday)) = db yesterday
  /\ excel (snd (fetch_table driverless yesterday)) = excel yesterday
  /\ outbox (snd (fetch_table driverless yesterday)) = outbox yesterday
  /\ delivered (snd (fetch_table driverless yesterday)) = delivered yesterday
  /\ (page_loads (snd (fetch_table driverless yesterday))
      <= S (page_loads yesterday))%nat
  /\ exists added,
      log (snd (fetch_table driverless yesterday)) = log yesterday ++ added.
Proof.
  exact (fetch_table_writes_nothing
           driverless yesterday (snd (fetch_table driverless yesterday))
           (fst (fetch_table driverless yesterday)) eq_refl).
Defined.

(** X4: when the parsed table has a label that is not a string (a table
    without header row), [fetch_table] raises AttributeError from the
    [strip] call, after the page load and before any row count is logged. *)
Theorem fetch_table_headerless_raises
        (w : World) (s : State) (soup : list node) (table : node)
        (raw : RawFrame) :
  driver_fault w = None ->
  page w = Ok soup ->
  soup_find "table" soup = Some table ->
  read_html w table = Ok raw ->
  forallb is_text (raw_columns raw) = false ->
  fetch_table w s
  = (Raise (mkExn AttributeError "'int' object has no attribute 'strip'"),
     mkState (db s) (excel s) (log s ++ [(INFO, "Fetching MSE data...")])
             (outbox s) (delivered s) (S (page_loads s))).
Proof.
  intros Hd Hp Hf Hr Hl.
  unfold fetch_table, load_page, bind, logger, modify, raise, lift, ret.
  rewrite Hd. simpl. rewrite Hp, Hf, Hr, (strip_labels_int w _ Hl).
  reflexivity.
Qed.

Lemma fetch_table_headerless_raises_witness :
  fetch_table headerless fresh
  = (Raise (mkExn AttributeError "'int' object has no attribute 'strip'"),
     mkState None None [(INFO, "Fetching MSE data...")] [] [] 1).
Proof.
  exact (fetch_table_headerless_raises
           headerless fresh mainboard (Tag "table" [Tag "tr" []])
           (mkRaw [LInt 0; LInt 1] [[Text "AIRTEL"; Text "120.5"]])
           eq_refl eq_refl eq_refl eq_refl eq_refl).
Defined.

(** ** [save_to_sqlite]: schema *)





(** X6: once the table exists its columns never change: whatever frame is
    appended and whether the call returns or raises, the table is still
    there with the columns it had. *)
Theorem save_to_sqlite_keeps_schema
        (w : World) (df : DataFrame) (s s' : State) (t : Table)
        (r : result unit) :
  db s = Some t ->
  save_to_sqlite w df s = (r, s') ->
  exists t', db s' = Some t' /\ tcolumns t' = tcolumns t.
Proof.
  intros Hdb H. rewrite save_to_sqlite_eq in H.
  destruct (connect_fault w).
  { injection H as _ <-. eauto. }
  destruct (to_sql df (db s)) as [d|] eqn:Esql.
  - injection H as _ <-. cbn [db].
    apply to_sql_ok in Esql.
    destruct Esql as [t' [added [-> [Hc _]]]]. rewrite Hdb in Hc.
    destruct (has_column "Ticker" (columns df)); simpl; eauto.
  - injection H as _ <-. eauto.
Qed.

Lemma save_to_sqlite_keeps_schema_witness :
  exists t',
    db (snd (save_to_sqlite calm run_A yesterday)) = Some t'
    /\ tcolumns t' = price_columns.
Proof.
  exact (save_to_sqlite_keeps_schema
           calm run_A yesterday (snd (save_to_sqlite calm run_A yesterday))
           (mkTable price_columns
                    [(1%Z, [Text "X"; Text "9"; Text "2024-01-09"])])
           (fst (save_to_sqlite calm run_A yesterday))
           eq_refl eq_refl).
Defined.



(** ** [save_to_sqlite]: what the compaction keeps *)

Lemma NoDup_map_eq {A B : Type} (f : A -> B) (l : list A) x y :
  NoDup (map f l) -> In x l -> In y l -> f x = f y -> x = y.
Proof.
  induction l as [|a l IH]; simpl; intros Hnd Hx Hy Hf; [tauto|].
  inversion Hnd as [|? ? Ha Hl]; subst.
  destruct Hx as [<- | Hx], Hy as [<- | Hy]; auto.
  - exfalso. apply Ha. rewrite Hf. now apply in_map.
  - exfalso. apply Ha. rewrite <- Hf. now apply in_map.
Qed.



(** X9: the compaction is idempotent: run on its own result it deletes
    nothing. *)
Theorem delete_duplicates_idempotent (t : Table) :
  NoDup (map fst (trows t)) ->
  delete_duplicates (delete_duplicates t) = delete_duplicates t.
Proof.
  intro Hnd.
  pose proof (delete_not_in_unique (group_key (tcolumns t)) (trows t) Hnd)
    as Hkeys.
  unfold delete_duplicates at 1. cbn [tcolumns trows]. f_equal.
  set (l := trows (delete_duplicates t)).
  assert (Hl : l = delete_not_in
                     (select_min_rowids (group_key (tcolumns t)) (trows t))
                     (trows t)) by reflexivity.
  rewrite <- Hl in Hkeys.
  cbn [delete_duplicates tcolumns]. fold l.
  unfold delete_not_in at 1.
  rewrite forallb_filter_id; [reflexivity|].
  apply forallb_forall. intros [i r] Hin. cbn [fst].
  apply existsb_exists. exists i. split; [|apply Z.eqb_refl].
  apply select_min_rowids_In. exists r. split; [assumption|].
  destruct (group_min_le (group_key (tcolumns t)) l i r Hin) as [m [G Hle]].
  rewrite G. f_equal.
  destruct (group_min_in _ _ _ _ G) as [q [Hq Hk]].
  assert (E : (m, q) = (i, r)).
  { apply (NoDup_map_eq (fun x => group_key (tcolumns t) (snd x)) l);
      auto. }
  now injection E.
Qed.

Lemma delete_duplicates_idempotent_witness :
  delete_duplicates
    (delete_duplicates
       (mkTable price_columns
                [(1%Z, [Text "X"; Text "9"; D1]);
                 (2%Z, [Text "X"; Text "9"; D1])]))
  = mkTable price_columns [(1%Z, [Text "X"; Text "9"; D1])].
Proof.
  rewrite (delete_duplicates_idempotent
             (mkTable price_columns
                      [(1%Z, [Text "X"; Text "9"; D1]);
                       (2%Z, [Text "X"; Text "9"; D1])])).
  - reflexivity.
  - repeat constructor; simpl; intuition discriminate.
Defined.

(** ** [save_to_sqlite]: existing records *)

(** X10: an append never alters a stored record: every record in the table
    afterwards is a record that was there before, rowid and cells
    unchanged, or a row of the appended frame. *)
Theorem save_to_sqlite_never_rewrites
        (w : World) (df : DataFrame) (s s' : State) (x : Z * list value) :
  save_to_sqlite w df s = (Ok tt, s') ->
  In x (stored (db s')) ->
  In x (stored (db s))
  \/ exists t' r,
      db s' = Some t' /\ In r (rows df)
      /\ snd x = stored_row (tcolumns t') (columns df) r.
Proof.
  intros Hok Hx.
  apply save_to_sqlite_ok in Hok. destruct Hok as [d [Hsql ->]].
  cbn [db] in *.
  apply to_sql_ok in Hsql.
  destruct Hsql as [t' [added [-> [_ [Hrows [Hsnd _]]]]]].
  assert (Hin : In x (trows t')).
  { destruct (has_column "Ticker" (columns df)); cbn in Hx; [|assumption].
    unfold delete_not_in in Hx. now apply filter_In in Hx. }
  rewrite Hrows in Hin. apply in_app_or in Hin.
  destruct Hin as [Hin | Hin]; [now left|]. right.
  assert (Hs : In (snd x) (map snd added)) by now apply in_map.
  rewrite Hsnd in Hs. apply in_map_iff in Hs. destruct Hs as [r [Hr Hin']].
  destruct (has_column "Ticker" (columns df)); cbn;
    eexists; exists r; (split; [reflexivity|]); auto.
Qed.

Lemma save_to_sqlite_never_rewrites_witness :
  In (1%Z, [Text "X"; Text "9"; Text "2024-01-09"]) (stored (db yesterday))
  \/ exists t' r,
      db (snd (save_to_sqlite calm run_A yesterday)) = Some t'
      /\ In r (rows run_A)
      /\ snd (1%Z, [Text "X"; Text "9"; Text "2024-01-09"])
         = stored_row (tcolumns t') (columns run_A) r.
Proof.
  apply (save_to_sqlite_never_rewrites
           calm run_A yesterday (snd (save_to_sqlite calm run_A yesterday))).
  - reflexivity.
  - simpl. now left.
Defined.

(** X11: an append loses no (Ticker, scrape_date) pair: every pair stored
    before, and the pair of every row of the frame, is the pair of a record
    stored afterwards. *)
Theorem save_to_sqlite_keeps_every_pair
        (w : World) (df : DataFrame) (s s' : State) (t' : Table) :
  save_to_sqlite w df s = (Ok tt, s') ->
  db s' = Some t' ->
  (forall x, In x (stored (db s)) ->
             In (stored_key (tcolumns t') x) (stored_pairs (db s')))
  /\ (forall r, In r (rows df) ->
                In (group_key (tcolumns t')
                              (stored_row (tcolumns t') (columns df) r))
                   (stored_pairs (db s'))).
Proof.
  intros Hok Hdb'.
  apply save_to_sqlite_ok in Hok. destruct Hok as [d [Hsql ->]].
  cbn [db] in Hdb'. cbn [db].
  apply to_sql_ok in Hsql.
  destruct Hsql as [t1 [added [-> [_ [Hrows [Hsnd _]]]]]].
  assert (Hall : forall x, In x (trows t1) ->
            In (stored_key (tcolumns t') x)
               (stored_pairs
                  (if has_column "Ticker" (columns df)
                   then option_map delete_duplicates (Some t1)
                   else Some t1))).
  { intros [i r] Hx.
    destruct (has_column "Ticker" (columns df)); cbn in Hdb' |- *;
      injection Hdb' as <-; cbn [tcolumns trows delete_duplicates].
    - destruct (group_survives (group_key (tcolumns t1)) (trows t1) i r Hx)
        as [j [q [Hq Hk]]].
      apply in_map_iff. exists (j, q). split; [exact Hk | exact Hq].
    - apply in_map_iff. exists (i, r). auto. }
  split.
  - intros x Hx. apply Hall. rewrite Hrows. apply in_or_app. now left.
  - intros r Hr.
    assert (Hcols : tcolumns t' = tcolumns t1).
    { destruct (has_column "Ticker" (columns df)); cbn in Hdb';
        now injection Hdb' as <-. }
    assert (Hs : In (stored_row (tcolumns t1) (columns df) r) (map snd added)).
    { rewrite Hsnd. now apply in_map. }
    apply in_map_iff in Hs. destruct Hs as [[i q] [Hq Hin]]. cbn in Hq.
    subst q. rewrite Hcols.
    specialize (Hall (i, stored_row (tcolumns t1) (columns df) r)).
    rewrite Hcols in Hall. apply Hall.
    rewrite Hrows. apply in_or_app. now right.
Qed.

Lemma save_to_sqlite_keeps_every_pair_witness :
  (forall x, In x (stored (db with_leftovers)) ->
             In (stored_key price_columns x)
                (stored_pairs
                   (db (snd (save_to_sqlite calm run_A with_leftovers)))))
  /\ (forall r, In r (rows run_A) ->
                In (group_key price_columns
                              (stored_row price_columns (columns run_A) r))
                   (stored_pairs
                      (db (snd (save_to_sqlite calm run_A with_leftovers))))).
Proof.
  exact (save_to_sqlite_keeps_every_pair
           calm run_A with_leftovers
           (snd (save_to_sqlite calm run_A with_leftovers))
           (mkTable price_columns
                    [(1%Z, [Text "X"; Text "9"; D1]);
                     (4%Z, [Text "Y"; Text "20"; D1])])
           eq_refl eq_refl).
Defined.



(** ** [save_to_sqlite] run after run *)




(** ** [save_to_excel] *)

(** X14: when the file exists, the file or the frame has a "Ticker" column
    and neither has a "scrape_date" column, [save_to_excel] raises the
    KeyError of [drop_duplicates]; the file is not rewritten and nothing is
    logged. *)
Theorem save_to_excel_key_error
        (w : World) (df old : DataFrame) (s : State) :
  excel s = Some old ->
  has_column "Ticker" (columns old) || has_column "Ticker" (columns df)
  = true ->
  has_column "scrape_date" (columns old) = false ->
  has_column "scrape_date" (columns df) = false ->
  exists e,
    exn_type e = KeyError /\ save_to_excel w df s = (Raise e, s).
Proof.
  intros Hex Ht Ho Hd.
  rewrite save_to_excel_eq, Hex. unfold merged, drop_duplicates.
  rewrite !has_column_concat, Ht, Ho, Hd. cbn [andb orb].
  eexists. split; [|reflexivity]. reflexivity.
Qed.

Lemma save_to_excel_key_error_witness :
  exists e,
    exn_type e = KeyError
    /\ save_to_excel calm (mkFrame ["Ticker"; "Close"] [[Text "X"; Text "1"]])
                     (mkState None (Some (mkFrame ["Ticker"; "Close"] []))
                              [] [] [] 0)
       = (Raise e,
          mkState None (Some (mkFrame ["Ticker"; "Close"] [])) [] [] [] 0).
Proof.
  exact (save_to_excel_key_error
           calm (mkFrame ["Ticker"; "Close"] [[Text "X"; Text "1"]])
           (mkFrame ["Ticker"; "Close"] [])
           (mkState None (Some (mkFrame ["Ticker"; "Close"] [])) [] [] [] 0)
           eq_refl eq_refl eq_refl eq_refl).
Defined.










(** ** Database and export together *)





(** ** One cycle *)

Lemma save_to_sqlite_loads (w : World) (df : DataFrame) (s s' : State) r :
  save_to_sqlite w df s = (r, s') ->
  page_loads s' = page_loads s /\ exists added, log s' = log s ++ added.
Proof.
  rewrite save_to_sqlite_eq. destruct (connect_fault w).
  - intro H. injection H as _ <-. split; [reflexivity|].
    exists []. now rewrite app_nil_r.
  - destruct (to_sql df (db s)); intro H; injection H as _ <-; simpl;
      (split; [reflexivity|]); [eauto|].
    exists []. now rewrite app_nil_r.
Qed.

Lemma save_to_excel_loads (w : World) (df : DataFrame) (s s' : State) r :
  save_to_excel w df s = (r, s') ->
  page_loads s' = page_loads s /\ exists added, log s' = log s ++ added.
Proof.
  rewrite save_to_excel_eq. destruct (merged (excel s) df).
  - destruct (to_excel_fault w); intro H; injection H as _ <-; simpl;
      (split; [reflexivity|]); [|eauto].
    exists []. now rewrite app_nil_r.
  - intro H. injection H as _ <-. split; [reflexivity|].
    exists []. now rewrite app_nil_r.
Qed.





Lemma on_failure_loads (w : World) (e : exn) (s : State) :
  page_loads (snd (on_failure w e s)) = page_loads s
  /\ exists added, log (snd (on_failure w e s)) = log s ++ added.
Proof.
  rewrite on_failure_eq. simpl. eauto.
Qed.

Lemma daily_job_page_and_log (w : World) (s : State) :
  (page_loads (snd (daily_job w s)) <= S (page_loads s))%nat
  /\ exists rest,
      log (snd (daily_job w s))
      = log s ++ (INFO, "----- Daily scrape started -----") :: rest.
Proof.
  rewrite daily_job_eq.
  destruct (fetch_table w (started s)) as [[df|e] s1] eqn:Hfetch;
    apply fetch_table_writes_nothing in Hfetch;
    destruct Hfetch as [_ [_ [_ [_ [Hp1 [a1 Hl1]]]]]];
    change (page_loads (started s)) with (page_loads s) in Hp1;
    change (log (started s))
      with (log s ++ [(INFO, "----- Daily scrape started -----")]) in Hl1.
  2:{ destruct (on_failure_loads w e s1) as [Hp [a Hl]].
      rewrite Hp, Hl, Hl1. split; [assumption|].
      exists (a1 ++ a). now rewrite <- !app_assoc. }
  destruct (save_to_sqlite w df s1) as [[[]|e] s2] eqn:Hsql;
    apply save_to_sqlite_loads in Hsql; destruct Hsql as [Hp2 [a2 Hl2]].
  2:{ destruct (on_failure_loads w e s2) as [Hp [a Hl]].
      rewrite Hp, Hl, Hl2, Hl1, Hp2. split; [assumption|].
      exists (a1 ++ a2 ++ a). now rewrite <- !app_assoc. }
  destruct (save_to_excel w df s2) as [[[]|e] s3] eqn:Hxl;
    apply save_to_excel_loads in Hxl; destruct Hxl as [Hp3 [a3 Hl3]].
  2:{ destruct (on_failure_loads w e s3) as [Hp [a Hl]].
      rewrite Hp, Hl, Hl3, Hl2, Hl1, Hp3, Hp2. split; [assumption|].
      exists (a1 ++ a2 ++ a3 ++ a). now rewrite <- !app_assoc. }
  rewrite send_email_eq. unfold logger, modify. cbn [snd page_loads log].
  rewrite Hp3, Hp2, Hl3, Hl2, Hl1. split; [assumption|].
  eexists. rewrite <- !app_assoc. cbn [app]. reflexivity.
Qed.

(** X20: a cycle loads the page at most once: the job runner does not
    retry a failed collection; and a cycle only appends to the log, starting
    with its "Daily scrape started" line. *)
Theorem daily_job_does_not_retry (w : World) (s : State) :
  (page_loads (snd (daily_job w s)) <= S (page_loads s))%nat
  /\ exists rest,
      log (snd (daily_job w s))
      = log s ++ (INFO, "----- Daily scrape started -----") :: rest.
Proof.
  exact (daily_job_page_and_log w s).
Qed.

(** ** The scheduler loop *)


